(** * braintree.configuration: the Configuration class

    A shallow embedding of [braintree/configuration.py].  The class keeps
    the account credentials in class attributes (process-wide state),
    [instantiate] copies them into a fresh instance, and every instance
    resolves an HTTP strategy once, in its constructor.

    Python objects are mutable and the strategy objects keep a reference to
    the instance that made them, so the instances live in a heap and the
    methods run in a state-and-exception monad over the whole interpreter
    state: class attributes, [os.environ], [sys.version_info] and the heap.

    The private methods [__determine_http_strategy] and
    [__http_strategy_from_environment] appear without the leading
    underscores.  [gateway] and [http] only wrap [instantiate()] and [self]
    in objects of classes defined elsewhere and are left out. *)

From stdpp Require Import gmap strings list fin_maps.

Open Scope string_scope.
Open Scope list_scope.

(** ** Values *)

Abbreviation loc := nat.

(** Modelled from the spec: the environment registry ([braintree.Environment])
    is not part of the sources; an environment descriptor "provides protocol
    scheme and server:port used to build base URLs", both strings. *)
Record Environment := {
  protocol : string;
  server_and_port : string
}.

Inductive pyval :=
| PyNone
| PyBool (b : bool)
| PyInt (z : Z)
| PyStr (s : string)
| PyEnv (e : Environment)
| PyRef (l : loc).

(** Python truth value, as tested by [if v:]. *)
Definition truthy (v : pyval) : bool :=
  match v with
  | PyNone => false
  | PyBool b => b
  | PyInt z => negb (z =? 0)%Z
  | PyStr s => negb (String.eqb s "")
  | PyEnv _ => true
  | PyRef _ => true
  end.

Inductive exn :=
| AttributeError (attr : string)
| KeyError (key : string)
| TypeError
| ValueError (msg : string).

Inductive result (A : Type) :=
| Ok (a : A)
| Raise (e : exn).
Arguments Ok {A} a.
Arguments Raise {A} e.

(** ** Objects and interpreter state *)

(** Modelled from the spec: the three strategy classes of
    [braintree.util.http_strategy] are not part of the sources; they are
    "interchangeable implementations of the HTTP request/response mechanics",
    told apart here by their class only. *)
Inductive StrategyKind := HttplibStrategy | PycurlStrategy | RequestsStrategy.

(** A [Configuration] instance is its attribute dictionary; a strategy
    object is its class and the two arguments its constructor was given. *)
Inductive obj :=
| ConfigurationObj (attrs : gmap string pyval)
| StrategyObj (kind : StrategyKind) (config : loc) (environment : pyval).

Record World := {
  cls : gmap string pyval;         (* data attributes of the class Configuration *)
  os_environ : gmap string string; (* os.environ *)
  version_info : Z * Z;            (* sys.version_info[0], sys.version_info[1] *)
  heap : list obj                  (* objects, a reference is an index *)
}.

Definition with_cls (c : gmap string pyval) (w : World) : World :=
  {| cls := c; os_environ := os_environ w;
     version_info := version_info w; heap := heap w |}.

Definition with_heap (h : list obj) (w : World) : World :=
  {| cls := cls w; os_environ := os_environ w;
     version_info := version_info w; heap := h |}.

(** ** The monad: state and exceptions; the state survives a raise. *)

Definition M (A : Type) : Type := World -> result A * World.

Definition ret {A} (a : A) : M A := fun w => (Ok a, w).

Definition raise {A} (e : exn) : M A := fun w => (Raise e, w).

Definition bind {A B} (m : M A) (k : A -> M B) : M B :=
  fun w =>
    match m w with
    | (Ok a, w') => k a w'
    | (Raise e, w') => (Raise e, w')
    end.

Declare Scope py_scope.
Delimit Scope py_scope with py.
Notation "x <- c ;; k" := (bind c (fun x => k))
  (at level 100, c at next level, right associativity) : py_scope.
Notation "c ;; k" := (bind c (fun _ => k))
  (at level 100, right associativity) : py_scope.
Open Scope py_scope.

Definition get_world : M World := fun w => (Ok w, w).

(** *** Attribute access *)

(** [Configuration.name] *)
Definition class_getattr (name : string) : M pyval :=
  fun w =>
    match cls w !! name with
    | Some v => (Ok v, w)
    | None => (Raise (AttributeError name), w)
    end.

(** [Configuration.name = v] *)
Definition class_setattr (name : string) (v : pyval) : M unit :=
  fun w => (Ok tt, with_cls (<[name := v]> (cls w)) w).

(** [self.name]: the instance dictionary first, then the class.  [self] is
    always a [Configuration] instance in the source; any other reference has
    none of the attributes read here. *)
Definition getattr (self : loc) (name : string) : M pyval :=
  fun w =>
    match heap w !! self with
    | Some (ConfigurationObj attrs) =>
        match attrs !! name with
        | Some v => (Ok v, w)
        | None => class_getattr name w
        end
    | _ => (Raise (AttributeError name), w)
    end.

(** [self.name = v] *)
Definition setattr (self : loc) (name : string) (v : pyval) : M unit :=
  fun w =>
    match heap w !! self with
    | Some (ConfigurationObj attrs) =>
        (Ok tt, with_heap (<[self := ConfigurationObj (<[name := v]> attrs)]> (heap w)) w)
    | _ => (Raise (AttributeError name), w)
    end.

(** Attributes of a value that is not a heap reference: only environment
    descriptors have any. *)
Definition value_getattr (v : pyval) (name : string) : M pyval :=
  match v with
  | PyEnv e =>
      if String.eqb name "protocol" then ret (PyStr (protocol e))
      else if String.eqb name "server_and_port" then ret (PyStr (server_and_port e))
      else raise (AttributeError name)
  | _ => raise (AttributeError name)
  end.

(** A new object; its reference is the next free index. *)
Definition alloc (o : obj) : M loc :=
  fun w => (Ok (length (heap w)), with_heap (heap w ++ [o]) w).

(** *** The operator [+] *)

Definition as_int (v : pyval) : option Z :=
  match v with
  | PyBool b => Some (if b then 1 else 0)%Z
  | PyInt z => Some z
  | _ => None
  end.

Definition py_add (a b : pyval) : M pyval :=
  match a, b with
  | PyStr s, PyStr t => ret (PyStr (s +:+ t))
  | _, _ =>
      match as_int a, as_int b with
      | Some x, Some y => ret (PyInt (x + y))
      | _, _ => raise TypeError
      end
  end.

(** ** class Configuration *)

(** Modelled from the spec: the constructors of the strategy classes are not
    part of the sources; [StrategyClass(config, environment)] is taken to
    make a new object that keeps its two arguments, and not to raise. *)
Definition new_strategy (kind : StrategyKind) (config : loc) (environment : pyval) : M loc :=
  alloc (StrategyObj kind config environment).

Definition configure (environment merchant_id public_key private_key use_once : pyval)
  : M unit :=
  class_setattr "environment" environment ;;
  class_setattr "merchant_id" merchant_id ;;
  class_setattr "public_key" public_key ;;
  class_setattr "private_key" private_key ;;
  class_setattr "use_unsafe_ssl" (PyBool false) ;;
  class_setattr "use_once" use_once.

(** [configure] called with four arguments: [use_once=False]. *)
Definition configure_default (environment merchant_id public_key private_key : pyval)
  : M unit :=
  configure environment merchant_id public_key private_key (PyBool false).

Definition api_version : M pyval := ret (PyStr "3").

Definition http_strategy_from_environment (self : loc) : M loc :=
  w <- get_world ;;
  match os_environ w !! "PYTHON_HTTP_STRATEGY" with
  | None => raise (KeyError "PYTHON_HTTP_STRATEGY")
  | Some strategy_name =>
      if String.eqb strategy_name "httplib" then
        e <- getattr self "environment" ;; new_strategy HttplibStrategy self e
      else if String.eqb strategy_name "pycurl" then
        e <- getattr self "environment" ;; new_strategy PycurlStrategy self e
      else if String.eqb strategy_name "requests" then
        e <- getattr self "environment" ;; new_strategy RequestsStrategy self e
      else raise (ValueError "invalid http strategy")
  end.

Definition determine_http_strategy (self : loc) : M loc :=
  w <- get_world ;;
  if bool_decide (is_Some (os_environ w !! "PYTHON_HTTP_STRATEGY")) then
    http_strategy_from_environment self
  else if ((version_info w).1 =? 2)%Z && ((version_info w).2 =? 5)%Z then
    e <- getattr self "environment" ;; new_strategy PycurlStrategy self e
  else
    e <- getattr self "environment" ;; new_strategy RequestsStrategy self e.

Definition __init__ (self : loc) (environment merchant_id public_key private_key : pyval)
  : M unit :=
  setattr self "environment" environment ;;
  setattr self "merchant_id" merchant_id ;;
  setattr self "public_key" public_key ;;
  setattr self "private_key" private_key ;;
  s <- determine_http_strategy self ;;
  setattr self "_http_strategy" (PyRef s).

(** The call [Configuration(environment, merchant_id, public_key, private_key)]:
    a new instance with no attributes, then [__init__] on it. *)
Definition Configuration_new (environment merchant_id public_key private_key : pyval)
  : M loc :=
  self <- alloc (ConfigurationObj ∅) ;;
  __init__ self environment merchant_id public_key private_key ;;
  ret self.

Definition instantiate : M loc :=
  environment <- class_getattr "environment" ;;
  merchant_id <- class_getattr "merchant_id" ;;
  public_key <- class_getattr "public_key" ;;
  private_key <- class_getattr "private_key" ;;
  config <- Configuration_new environment merchant_id public_key private_key ;;
  use_once <- class_getattr "use_once" ;;
  (if truthy use_once then
     class_setattr "merchant_id" PyNone ;;
     class_setattr "public_key" PyNone ;;
     class_setattr "private_key" PyNone
   else ret tt) ;;
  ret config.

Definition base_merchant_path (self : loc) : M pyval :=
  merchant_id <- getattr self "merchant_id" ;;
  py_add (PyStr "/merchants/") merchant_id.

Definition base_merchant_url (self : loc) : M pyval :=
  e1 <- getattr self "environment" ;;
  p <- value_getattr e1 "protocol" ;;
  e2 <- getattr self "environment" ;;
  sp <- value_getattr e2 "server_and_port" ;;
  a <- py_add p sp ;;
  path <- base_merchant_path self ;;
  py_add a path.

Definition http_strategy (self : loc) : M pyval :=
  use_unsafe_ssl <- class_getattr "use_unsafe_ssl" ;;
  if truthy use_unsafe_ssl then
    e <- getattr self "environment" ;;
    s <- new_strategy HttplibStrategy self e ;;
    ret (PyRef s)
  else
    getattr self "_http_strategy".

Definition _request_complete (self : loc) : M unit :=
  use_once <- class_getattr "use_once" ;;
  if truthy use_once then
    setattr self "merchant_id" PyNone ;;
    setattr self "public_key" PyNone ;;
    setattr self "private_key" PyNone
  else ret tt.

(** ** The resolution order, in the words of the specification

    "If an environment override variable specifies a named strategy
    (httplib | pycurl | requests), select that implementation; an
    unrecognized name fails with an invalid-configuration error.  Else, if
    running under a specific legacy runtime version, select the pycurl-based
    strategy.  Else, default to a standard high-level HTTP-library-based
    strategy."  The invalid-configuration error of the specification is the
    [ValueError] the code raises. *)

Definition spec_strategy_of_name (name : string) : option StrategyKind :=
  if decide (name = "httplib") then Some HttplibStrategy
  else if decide (name = "pycurl") then Some PycurlStrategy
  else if decide (name = "requests") then Some RequestsStrategy
  else None.

Definition InvalidConfigurationError : exn := ValueError "invalid http strategy".

Definition spec_resolve_strategy (environ : gmap string string) (version : Z * Z)
  : result StrategyKind :=
  match environ !! "PYTHON_HTTP_STRATEGY" with
  | Some name =>
      match spec_strategy_of_name name with
      | Some k => Ok k
      | None => Raise InvalidConfigurationError
      end
  | None =>
      if decide (version = (2, 5)%Z) then Ok PycurlStrategy else Ok RequestsStrategy
  end.

(** ** Observations used in the statements *)

(** The entry [name] of the instance dictionary of [c] (no class fallback). *)
Definition snapshot_field (w : World) (c : loc) (name : string) : option pyval :=
  match heap w !! c with
  | Some (ConfigurationObj attrs) => attrs !! name
  | _ => None
  end.

(** The class of the strategy object a value refers to. *)
Definition strategy_kind (w : World) (v : pyval) : option StrategyKind :=
  match v with
  | PyRef l =>
      match heap w !! l with
      | Some (StrategyObj k _ _) => Some k
      | _ => None
      end
  | _ => None
  end.

(** The override variable is absent or names one of the three strategies. *)
Definition valid_override (w : World) : Prop :=
  ∀ name, os_environ w !! "PYTHON_HTTP_STRATEGY" = Some name →
          name = "httplib" ∨ name = "pycurl" ∨ name = "requests".

(** The class attributes [configure] leaves behind. *)
Definition configured (e m p s u : pyval) (c : gmap string pyval) : gmap string pyval :=
  <["use_once" := u]> (<["use_unsafe_ssl" := PyBool false]>
    (<["private_key" := s]> (<["public_key" := p]>
      (<["merchant_id" := m]> (<["environment" := e]> c))))).

(** The instance dictionary after the four assignments of [__init__]. *)
Definition init_attrs (environment merchant_id public_key private_key : pyval)
  : gmap string pyval :=
  <["private_key" := private_key]> (<["public_key" := public_key]>
    (<["merchant_id" := merchant_id]> (<["environment" := environment]> ∅))).

(** The class attributes after the three assignments under [if use_once]. *)
Definition cleared (c : gmap string pyval) : gmap string pyval :=
  <["private_key" := PyNone]> (<["public_key" := PyNone]> (<["merchant_id" := PyNone]> c)).

(** The override variable is set, to a name that is none of the three. *)
Definition unrecognized_override (w : World) : Prop :=
  ∃ name, os_environ w !! "PYTHON_HTTP_STRATEGY" = Some name
          ∧ name ≠ "httplib" ∧ name ≠ "pycurl" ∧ name ≠ "requests".

Definition credential_names : list string := ["merchant_id"; "public_key"; "private_key"].

(** The result [r] of a constructor call is a snapshot that caches a
    strategy object of class [k]. *)
Definition caches (r : result loc * World) (k : StrategyKind) : Prop :=
  ∃ c v, fst r = Ok c
         ∧ snapshot_field (snd r) c "_http_strategy" = Some v
         ∧ strategy_kind (snd r) v = Some k.

(** [configure(...)], then [instantiate().http_strategy()]. *)
Definition configured_strategy (environment merchant_id public_key private_key use_once : pyval)
  : M pyval :=
  configure environment merchant_id public_key private_key use_once ;;
  c <- instantiate ;;
  http_strategy c.

(** The class attributes [instantiate] reads before it calls the constructor,
    in the order it reads them, and all it reads. *)
Definition instantiate_reads : list string :=
  ["environment"; "merchant_id"; "public_key"; "private_key"].

Definition instantiate_reads_all : list string := instantiate_reads ++ ["use_once"].

(** The first of [names] that is not a class attribute. *)
Definition first_missing (c : gmap string pyval) (names : list string) : option string :=
  List.find (fun name => bool_decide (c !! name = None)) names.

(** Two accounts served one after the other: configure the first, take a
    snapshot, configure the second, take a snapshot. *)
Definition two_tenants (eA mA pA sA uA eB mB pB sB uB : pyval) : M (loc * loc) :=
  configure eA mA pA sA uA ;;
  c1 <- instantiate ;;
  configure eB mB pB sB uB ;;
  c2 <- instantiate ;;
  ret (c1, c2).


(** A computation that leaves the state as it found it, whatever it returns
    or raises. *)
Definition keeps_state {A} (m : M A) : Prop := ∀ w, snd (m w) = w.

(** ** Test worlds *)

Definition sandbox : Environment :=
  {| protocol := "https://"; server_and_port := "sandbox.example.com:443" |}.

(** Nothing configured, no override, Python 2.7. *)
Definition world0 : World :=
  {| cls := ∅; os_environ := ∅; version_info := (2, 7)%Z; heap := [] |}.

Definition with_override (name : string) (w : World) : World :=
  {| cls := cls w; os_environ := <["PYTHON_HTTP_STRATEGY" := name]> (os_environ w);
     version_info := version_info w; heap := heap w |}.

(** [configure(sandbox, "m1", "pub1", "priv1", use_once)] in [w]. *)
Definition configure_m1 (use_once : bool) (w : World) : World :=
  snd (configure (PyEnv sandbox) (PyStr "m1") (PyStr "pub1") (PyStr "priv1")
         (PyBool use_once) w).

(** The same, then [instantiate()]: the snapshot is object 0 of [world0]. *)
Definition instantiated_m1 (use_once : bool) (w : World) : World :=
  snd (instantiate (configure_m1 use_once w)).

(** Python 2.5 and no override: the constructor picks pycurl. *)
Definition world25 : World :=
  {| cls := ∅; os_environ := ∅; version_info := (2, 5)%Z; heap := [] |}.

(** A snapshot made under the override [pycurl], and [use_unsafe_ssl]
    switched on afterwards. *)
Definition unsafe_world : World :=
  snd (class_setattr "use_unsafe_ssl" (PyBool true)
         (instantiated_m1 false (with_override "pycurl" world0))).

Definition scenario1 : M pyval :=
  configure_default (PyEnv sandbox) (PyStr "m1") (PyStr "pub1") (PyStr "priv1") ;;
  c <- instantiate ;;
  base_merchant_url c.

(** * Properties *)

Example scenario1_runs :
  fst (scenario1 world0) = Ok (PyStr "https://sandbox.example.com:443/merchants/m1").
Proof. vm_compute. reflexivity. Qed.

Example api_version_constant w : fst (api_version w) = Ok (PyStr "3").
Proof. reflexivity. Qed.

(** ** The primitives *)

Section Primitives.
Context (w : World).

Lemma getattr_own self attrs name v :
  heap w !! self = Some (ConfigurationObj attrs) →
  attrs !! name = Some v →
  getattr self name w = (Ok v, w).
Proof. intros Hh Ha. unfold getattr. by rewrite Hh, Ha. Qed.

Lemma setattr_middle h attrs t name v :
  heap w = h ++ ConfigurationObj attrs :: t →
  setattr (length h) name v w =
    (Ok tt, with_heap (h ++ ConfigurationObj (<[name := v]> attrs) :: t) w).
Proof.
  intros Hh. unfold setattr. rewrite Hh, list_lookup_middle by done.
  rewrite insert_app_r_alt, Nat.sub_diag by done. done.
Qed.

Lemma getattr_middle h attrs t name v :
  heap w = h ++ ConfigurationObj attrs :: t →
  attrs !! name = Some v →
  getattr (length h) name w = (Ok v, w).
Proof.
  intros Hh Ha. apply getattr_own with attrs; [|done].
  by rewrite Hh, list_lookup_middle.
Qed.
End Primitives.

(** ** Strategy resolution against the specification's order *)

Lemma spec_strategy_of_name_eqb name :
  spec_strategy_of_name name =
    if String.eqb name "httplib" then Some HttplibStrategy
    else if String.eqb name "pycurl" then Some PycurlStrategy
    else if String.eqb name "requests" then Some RequestsStrategy
    else None.
Proof.
  unfold spec_strategy_of_name.
  destruct (String.eqb_spec name "httplib") as [->|?]; [done|].
  destruct (String.eqb_spec name "pycurl") as [->|?]; [done|].
  destruct (String.eqb_spec name "requests") as [->|?]; [done|].
  by rewrite !decide_False.
Qed.

Lemma version_test (v : Z * Z) :
  ((v.1 =? 2)%Z && (v.2 =? 5)%Z) = bool_decide (v = (2, 5)%Z).
Proof.
  destruct v as [a b]; simpl.
  destruct (Z.eqb_spec a 2), (Z.eqb_spec b 5); simpl;
    symmetry; (apply bool_decide_eq_true || apply bool_decide_eq_false); congruence.
Qed.

(** [__determine_http_strategy] on an instance that has its [environment]:
    one new strategy object of the kind the specification's order gives, or
    the error, with nothing allocated. *)
Lemma determine_http_strategy_run w self e :
  fst (getattr self "environment" w) = Ok e →
  determine_http_strategy self w =
    match spec_resolve_strategy (os_environ w) (version_info w) with
    | Ok k => (Ok (length (heap w)), with_heap (heap w ++ [StrategyObj k self e]) w)
    | Raise x => (Raise x, w)
    end.
Proof.
  intros He.
  assert (Hg : getattr self "environment" w = (Ok e, w)).
  { revert He. unfold getattr, class_getattr.
    repeat case_match; simpl; congruence. }
  unfold determine_http_strategy, http_strategy_from_environment,
    spec_resolve_strategy, bind, get_world.
  rewrite version_test.
  destruct (os_environ w !! "PYTHON_HTTP_STRATEGY") as [name|] eqn:Hn.
  - rewrite bool_decide_eq_true_2 by eauto.
    rewrite Hn, spec_strategy_of_name_eqb.
    repeat (destruct (String.eqb name _); [by rewrite Hg|]). done.
  - rewrite bool_decide_eq_false_2 by (intros [? ?]; done).
    case_bool_decide; rewrite decide_bool_decide.
    + rewrite bool_decide_eq_true_2 by done. by rewrite Hg.
    + rewrite bool_decide_eq_false_2 by done. by rewrite Hg.
Qed.

(** ** Running the constructor *)

Lemma bind_ok {A B} (m : M A) (k : A → M B) w a w' :
  m w = (Ok a, w') → bind m k w = k a w'.
Proof. intros H. unfold bind. by rewrite H. Qed.

Lemma bind_raise {A B} (m : M A) (k : A → M B) w x w' :
  m w = (Raise x, w') → bind m k w = (Raise x, w').
Proof. intros H. unfold bind. by rewrite H. Qed.

Lemma init_run w h attrs t e m p s :
  heap w = h ++ ConfigurationObj attrs :: t →
  __init__ (length h) e m p s w =
    let attrs4 :=
      <["private_key" := s]> (<["public_key" := p]>
        (<["merchant_id" := m]> (<["environment" := e]> attrs))) in
    match spec_resolve_strategy (os_environ w) (version_info w) with
    | Ok k =>
        (Ok tt,
         with_heap (h ++ ConfigurationObj (<["_http_strategy" := PyRef (length (heap w))]> attrs4)
                      :: t ++ [StrategyObj k (length h) e]) w)
    | Raise x => (Raise x, with_heap (h ++ ConfigurationObj attrs4 :: t) w)
    end.
Proof.
  intros Hh. unfold __init__.
  do 4 (erewrite bind_ok; [|by eapply setattr_middle]).
  cbn zeta.
  set (attrs4 := <["private_key" := s]> _).
  set (w4 := with_heap _ _).
  assert (Hd : determine_http_strategy (length h) w4 =
            match spec_resolve_strategy (os_environ w) (version_info w) with
            | Ok k => (Ok (length (heap w)),
                       with_heap (heap w4 ++ [StrategyObj k (length h) e]) w4)
            | Raise x => (Raise x, w4)
            end).
  { rewrite (determine_http_strategy_run w4 (length h) e).
    - replace (length (heap w4)) with (length (heap w)); [done|].
      subst w4. simpl. rewrite Hh, !length_app. done.
    - erewrite getattr_middle; [done|done|].
      subst attrs4. by simplify_map_eq. }
  destruct (spec_resolve_strategy _ _) as [k|x].
  - erewrite bind_ok by exact Hd.
    erewrite setattr_middle.
    2:{ simpl. by rewrite <- app_assoc. }
    done.
  - by erewrite bind_raise by exact Hd.
Qed.

Lemma Configuration_new_run w e m p s :
  Configuration_new e m p s w =
    let c := length (heap w) in
    match spec_resolve_strategy (os_environ w) (version_info w) with
    | Ok k =>
        (Ok c,
         with_heap (heap w ++ [ConfigurationObj (<["_http_strategy" := PyRef (S c)]>
                                                   (init_attrs e m p s));
                               StrategyObj k c e]) w)
    | Raise x => (Raise x, with_heap (heap w ++ [ConfigurationObj (init_attrs e m p s)]) w)
    end.
Proof.
  unfold Configuration_new.
  erewrite bind_ok by reflexivity.
  set (w1 := with_heap _ w).
  pose proof (init_run w1 (heap w) ∅ [] e m p s eq_refl) as Hi.
  cbn zeta in *. fold (init_attrs e m p s) in Hi.
  change (os_environ w1) with (os_environ w) in Hi.
  change (version_info w1) with (version_info w) in Hi.
  destruct (spec_resolve_strategy _ _) as [k|x].
  - erewrite bind_ok by exact Hi. unfold ret. subst w1. simpl.
    by rewrite length_app, Nat.add_1_r.
  - by erewrite bind_raise by exact Hi.
Qed.

(** [instantiate] when the class attributes it reads are there. *)
Lemma instantiate_run w e m p s u :
  cls w !! "environment" = Some e →
  cls w !! "merchant_id" = Some m →
  cls w !! "public_key" = Some p →
  cls w !! "private_key" = Some s →
  cls w !! "use_once" = Some u →
  instantiate w =
    let c := length (heap w) in
    match spec_resolve_strategy (os_environ w) (version_info w) with
    | Ok k =>
        (Ok c,
         {| cls := if truthy u then cleared (cls w) else cls w;
            os_environ := os_environ w;
            version_info := version_info w;
            heap := heap w ++ [ConfigurationObj (<["_http_strategy" := PyRef (S c)]>
                                                   (init_attrs e m p s));
                               StrategyObj k c e] |})
    | Raise x => (Raise x, with_heap (heap w ++ [ConfigurationObj (init_attrs e m p s)]) w)
    end.
Proof.
  intros He Hm Hp Hs Hu. unfold instantiate.
  assert (Hc : ∀ n v, cls w !! n = Some v → class_getattr n w = (Ok v, w)).
  { intros n v H. unfold class_getattr. by rewrite H. }
  do 4 (erewrite bind_ok by (by apply Hc)).
  pose proof (Configuration_new_run w e m p s) as Hn. cbn zeta in *.
  destruct (spec_resolve_strategy _ _) as [k|x].
  - erewrite bind_ok by exact Hn.
    erewrite bind_ok.
    2:{ unfold class_getattr. simpl. by rewrite Hu. }
    destruct (truthy u); reflexivity.
  - by erewrite bind_raise by exact Hn.
Qed.

(** ** What the methods leave alone *)

Lemma Configuration_new_cls w e m p s :
  cls (snd (Configuration_new e m p s w)) = cls w.
Proof.
  rewrite Configuration_new_run. cbn zeta.
  by destruct (spec_resolve_strategy _ _).
Qed.

Lemma Configuration_new_environ w e m p s :
  os_environ (snd (Configuration_new e m p s w)) = os_environ w
  ∧ version_info (snd (Configuration_new e m p s w)) = version_info w.
Proof.
  rewrite Configuration_new_run. cbn zeta.
  by destruct (spec_resolve_strategy _ _).
Qed.

(** The class attributes after [instantiate], on every path. *)
Lemma instantiate_cls w :
  cls (snd (instantiate w)) = cls w
  ∨ (∃ u, cls w !! "use_once" = Some u ∧ truthy u = true
          ∧ cls (snd (instantiate w)) = cleared (cls w)).
Proof.
  unfold instantiate, bind, class_getattr.
  destruct (cls w !! "environment") as [e|]; [|by left].
  destruct (cls w !! "merchant_id") as [m|]; [|by left].
  destruct (cls w !! "public_key") as [p|]; [|by left].
  destruct (cls w !! "private_key") as [s|]; [|by left].
  pose proof (Configuration_new_cls w e m p s) as Hc.
  destruct (Configuration_new e m p s w) as [[c|x] w1]; simpl in *; [|by left].
  rewrite Hc.
  destruct (cls w !! "use_once") as [u|] eqn:Hu; [|by left].
  destruct (truthy u) eqn:Ht; simpl; [|by left].
  right. exists u. by rewrite Hc.
Qed.

Lemma cleared_lookup_credential (c : gmap string pyval) name :
  name ∈ credential_names → cleared c !! name = Some PyNone.
Proof.
  unfold credential_names, cleared. rewrite !elem_of_cons, elem_of_nil.
  intros [->|[->|[->|[]]]]; by simplify_map_eq.
Qed.

Lemma cleared_lookup_other (c : gmap string pyval) name :
  name ∉ credential_names → cleared c !! name = c !! name.
Proof.
  unfold credential_names, cleared. rewrite !not_elem_of_cons.
  intros (? & ? & ? & _). by rewrite !lookup_insert_ne.
Qed.

Lemma not_credential name :
  name ≠ "merchant_id" → name ≠ "public_key" → name ≠ "private_key" →
  name ∉ credential_names.
Proof.
  intros ? ? ?. unfold credential_names.
  rewrite !not_elem_of_cons. repeat split; [done..|apply not_elem_of_nil].
Qed.

Lemma string_app_assoc (a b c : string) : (a +:+ b) +:+ c = a +:+ b +:+ c.
Proof.
  induction a as [|x a IH]; [reflexivity|].
  change (String x ((a +:+ b) +:+ c) = String x (a +:+ b +:+ c)). by f_equal.
Qed.

Lemma getattr_snapshot_field w c name v :
  snapshot_field w c name = Some v → getattr c name w = (Ok v, w).
Proof.
  unfold snapshot_field, getattr.
  destruct (heap w !! c) as [[attrs|]|]; [|done..]. by intros ->.
Qed.

Lemma new_snapshot_field h attrs t cl env ver name :
  snapshot_field {| cls := cl; os_environ := env; version_info := ver;
                    heap := h ++ ConfigurationObj attrs :: t |} (length h) name
  = attrs !! name.
Proof. unfold snapshot_field. simpl. by rewrite list_lookup_middle. Qed.

Lemma init_attrs_lookup e m p s v :
  let attrs := <["_http_strategy" := v]> (init_attrs e m p s) in
  attrs !! "environment" = Some e ∧ attrs !! "merchant_id" = Some m
  ∧ attrs !! "public_key" = Some p ∧ attrs !! "private_key" = Some s
  ∧ attrs !! "_http_strategy" = Some v.
Proof. unfold init_attrs. cbn zeta. repeat split; by simplify_map_eq. Qed.

Lemma valid_override_resolves w :
  valid_override w ↔ ∃ k, spec_resolve_strategy (os_environ w) (version_info w) = Ok k.
Proof.
  unfold valid_override, spec_resolve_strategy, spec_strategy_of_name. split.
  - intros H. destruct (os_environ w !! "PYTHON_HTTP_STRATEGY") as [name|].
    + destruct (H name eq_refl) as [-> | [-> | ->]]; eauto.
    + case_decide; eauto.
  - intros [k Hk] name Hn. rewrite Hn in Hk.
    repeat (case_decide; [by auto|]). done.
Qed.

(** [http_strategy] with [use_unsafe_ssl] false: the cached value, and the
    same world. *)
Lemma http_strategy_cached w c v u :
  snapshot_field w c "_http_strategy" = Some v →
  cls w !! "use_unsafe_ssl" = Some u →
  truthy u = false →
  http_strategy c w = (Ok v, w).
Proof.
  intros Hv Hu Ht. unfold http_strategy.
  erewrite bind_ok by (unfold class_getattr; by rewrite Hu).
  rewrite Ht. by apply getattr_snapshot_field.
Qed.

Lemma configure_run w e m p s u :
  configure e m p s u w = (Ok tt, with_cls (configured e m p s u (cls w)) w).
Proof. reflexivity. Qed.

Lemma configured_lookup e m p s u c :
  let c' := configured e m p s u c in
  c' !! "environment" = Some e ∧ c' !! "merchant_id" = Some m
  ∧ c' !! "public_key" = Some p ∧ c' !! "private_key" = Some s
  ∧ c' !! "use_unsafe_ssl" = Some (PyBool false) ∧ c' !! "use_once" = Some u.
Proof. unfold configured. cbn zeta. repeat split; by simplify_map_eq. Qed.

(** * Properties of the specification *)

(** C9: every call to [configure] assigns [False] to the class attribute
    [use_unsafe_ssl], which is not among its parameters; whatever value the
    caller had stored there before the call is lost. *)
Theorem configure_resets_use_unsafe_ssl w e m p s u :
  fst (configure e m p s u w) = Ok tt
  ∧ cls (snd (configure e m p s u w)) !! "use_unsafe_ssl" = Some (PyBool false)
  ∧ ∀ v, cls (snd ((class_setattr "use_unsafe_ssl" v ;; configure e m p s u) w))
           !! "use_unsafe_ssl" = Some (PyBool false).
Proof.
  split; [done|]. split; [|intros v]; simpl; by simplify_map_eq.
Qed.

(** C10: [instantiate] never changes the class attributes [environment],
    [use_once] and [use_unsafe_ssl]: it changes no class attribute at all
    when [use_once] is false, and no class attribute other than
    [merchant_id], [public_key] and [private_key] in any case. *)
Theorem instantiate_class_frame w :
  cls (snd (instantiate w)) !! "environment" = cls w !! "environment"
  ∧ cls (snd (instantiate w)) !! "use_once" = cls w !! "use_once"
  ∧ cls (snd (instantiate w)) !! "use_unsafe_ssl" = cls w !! "use_unsafe_ssl"
  ∧ (∀ name, name ∉ credential_names →
       cls (snd (instantiate w)) !! name = cls w !! name)
  ∧ (∀ u, cls w !! "use_once" = Some u → truthy u = false →
       cls (snd (instantiate w)) = cls w).
Proof.
  assert (Hother : ∀ name, name ∉ credential_names →
            cls (snd (instantiate w)) !! name = cls w !! name).
  { intros name Hn. destruct (instantiate_cls w) as [->|(u & _ & _ & ->)]; [done|].
    by apply cleared_lookup_other. }
  do 3 (split; [by apply Hother, not_credential|]).
  split; [done|].
  intros u Hu Ht. destruct (instantiate_cls w) as [->|(u' & Hu' & Ht' & _)]; [done|].
  congruence.
Qed.

(** C7: for a snapshot whose [merchant_id] is a string, [base_merchant_path]
    returns ["/merchants/"] followed by that string. *)
Theorem base_merchant_path_spec w c mid :
  snapshot_field w c "merchant_id" = Some (PyStr mid) →
  base_merchant_path c w = (Ok (PyStr ("/merchants/" +:+ mid)), w).
Proof.
  intros H. unfold base_merchant_path.
  by erewrite bind_ok by (by apply getattr_snapshot_field).
Qed.

(** C6: for a snapshot with an environment descriptor, [base_merchant_url]
    is the environment's protocol, then its server and port, then the result
    of [base_merchant_path] (and raises what [base_merchant_path] raises). *)
Theorem base_merchant_url_spec w c e :
  snapshot_field w c "environment" = Some (PyEnv e) →
  base_merchant_url c w =
    match base_merchant_path c w with
    | (Ok (PyStr path), w') => (Ok (PyStr (protocol e +:+ server_and_port e +:+ path)), w')
    | (Ok _, w') => (Raise TypeError, w')
    | (Raise x, w') => (Raise x, w')
    end.
Proof.
  intros H. unfold base_merchant_url.
  erewrite bind_ok by (by apply getattr_snapshot_field).
  erewrite bind_ok by reflexivity.
  erewrite bind_ok by (by apply getattr_snapshot_field).
  erewrite bind_ok by reflexivity.
  erewrite bind_ok by reflexivity.
  unfold bind. destruct (base_merchant_path c w) as [[path|x] w']; [|done].
  destruct path; try done. unfold py_add, ret. by rewrite string_app_assoc.
Qed.

(** C8: [_request_complete] replaces the snapshot's own [merchant_id],
    [public_key] and [private_key] by [None] exactly when the class attribute
    [use_once] is true; when it is false nothing changes at all. *)
Theorem request_complete_spec w c attrs u :
  heap w !! c = Some (ConfigurationObj attrs) →
  cls w !! "use_once" = Some u →
  _request_complete c w =
    (Ok tt,
     if truthy u
     then with_heap (<[c := ConfigurationObj (cleared attrs)]> (heap w)) w
     else w).
Proof.
  intros Hc Hu. unfold _request_complete.
  erewrite bind_ok by (unfold class_getattr; by rewrite Hu).
  destruct (truthy u); [|done].
  apply list_elem_of_split_length in Hc as (h & t & Hh & ->).
  do 2 (erewrite bind_ok; [|by eapply setattr_middle]).
  erewrite setattr_middle by done.
  rewrite Hh, insert_app_r_alt, Nat.sub_diag by done. done.
Qed.

(** C2: when the class attribute [use_unsafe_ssl] is true at the time of the
    call, [http_strategy] returns a new [HttplibStrategy] (the strategy
    without SSL verification) for this snapshot and its environment, whatever
    strategy the snapshot has cached and whatever [os.environ] holds. *)
Theorem http_strategy_unsafe w c e u :
  snapshot_field w c "environment" = Some e →
  cls w !! "use_unsafe_ssl" = Some u →
  truthy u = true →
  let r := http_strategy c w in
  r = (Ok (PyRef (length (heap w))),
       with_heap (heap w ++ [StrategyObj HttplibStrategy c e]) w)
  ∧ strategy_kind (snd r) (PyRef (length (heap w))) = Some HttplibStrategy.
Proof.
  intros He Hu Ht. cbn zeta.
  assert (Hr : http_strategy c w =
            (Ok (PyRef (length (heap w))),
             with_heap (heap w ++ [StrategyObj HttplibStrategy c e]) w)).
  { unfold http_strategy.
    erewrite bind_ok by (unfold class_getattr; by rewrite Hu).
    rewrite Ht.
    by erewrite bind_ok by (by apply getattr_snapshot_field). }
  split; [done|]. rewrite Hr. simpl. by rewrite list_lookup_middle.
Qed.

(** C3: the constructor resolves the strategy once, in the order of the
    specification (the override variable if set, else pycurl under Python
    2.5, else requests): it allocates the snapshot and exactly one strategy
    object, of the resolved class, and stores the reference in the snapshot.
    With [use_unsafe_ssl] false, [http_strategy] returns that stored
    reference and leaves the whole state as it is, whatever [os.environ] and
    [sys.version_info] hold at the time of the call. *)
Theorem strategy_resolved_once w e m p s :
  let c := length (heap w) in
  let r := Configuration_new e m p s w in
  match spec_resolve_strategy (os_environ w) (version_info w) with
  | Ok k =>
      fst r = Ok c
      ∧ heap (snd r) =
          heap w ++ [ConfigurationObj (<["_http_strategy" := PyRef (S c)]>
                                         (init_attrs e m p s));
                     StrategyObj k c e]
      ∧ ∀ w2 u,
          heap w2 !! c = heap (snd r) !! c →
          cls w2 !! "use_unsafe_ssl" = Some u →
          truthy u = false →
          http_strategy c w2 = (Ok (PyRef (S c)), w2)
  | Raise x =>
      fst r = Raise x
      ∧ heap (snd r) = heap w ++ [ConfigurationObj (init_attrs e m p s)]
  end.
Proof.
  cbn zeta. rewrite Configuration_new_run. cbn zeta.
  destruct (spec_resolve_strategy _ _) as [k|x]; simpl; [|done].
  split; [done|]. split; [done|].
  intros w2 u Hh Hu Ht. apply http_strategy_cached with u; [|done..].
  unfold snapshot_field. rewrite Hh, list_lookup_middle by done.
  apply init_attrs_lookup.
Qed.

(** C4: with the override variable set, the names [httplib], [pycurl] and
    [requests] make [configure] followed by [instantiate().http_strategy()]
    return a strategy of the class of that name; the constructor raises if
    and only if the variable is set to any other name, and what it raises is
    the [ValueError] for an invalid http strategy. *)
Theorem override_selects_strategy w e m p s u :
  let selects name k :=
    os_environ w !! "PYTHON_HTTP_STRATEGY" = Some name →
    caches (Configuration_new e m p s w) k
    ∧ ∃ v w', configured_strategy e m p s u w = (Ok v, w')
              ∧ strategy_kind w' v = Some k in
  selects "httplib" HttplibStrategy
  ∧ selects "pycurl" PycurlStrategy
  ∧ selects "requests" RequestsStrategy
  ∧ ((∃ x, fst (Configuration_new e m p s w) = Raise x) ↔ unrecognized_override w)
  ∧ (unrecognized_override w →
       fst (Configuration_new e m p s w) = Raise (ValueError "invalid http strategy")
       ∧ fst (configured_strategy e m p s u w) = Raise (ValueError "invalid http strategy")).
Proof.
  cbn zeta.
  assert (Hsel : ∀ k, spec_resolve_strategy (os_environ w) (version_info w) = Ok k →
            caches (Configuration_new e m p s w) k
            ∧ ∃ v w', configured_strategy e m p s u w = (Ok v, w')
                      ∧ strategy_kind w' v = Some k).
  { intros k Hk. split.
    - rewrite Configuration_new_run. cbn zeta. rewrite Hk.
      exists (length (heap w)), (PyRef (S (length (heap w)))). simpl.
      split; [done|]. split.
      + unfold snapshot_field. simpl. rewrite list_lookup_middle by done.
        apply init_attrs_lookup.
      + rewrite lookup_app_r by lia. by rewrite Nat.sub_succ_l, Nat.sub_diag.
    - unfold configured_strategy.
      erewrite bind_ok by apply configure_run.
      set (w0 := with_cls _ w).
      destruct (configured_lookup e m p s u (cls w)) as (He & Hm & Hp & Hs & Hf & Hu).
      erewrite bind_ok.
      2:{ rewrite (instantiate_run w0 e m p s u) by done. cbn zeta.
          change (os_environ w0) with (os_environ w).
          change (version_info w0) with (version_info w). by rewrite Hk. }
      eexists _, _. split.
      + apply http_strategy_cached with (PyBool false); [| |done].
        * rewrite new_snapshot_field. apply init_attrs_lookup.
        * simpl. destruct (truthy u); [|done].
          by rewrite cleared_lookup_other by by apply not_credential.
      + simpl. rewrite lookup_app_r by lia. by rewrite Nat.sub_succ_l, Nat.sub_diag. }
  assert (Hbad : ∀ name, os_environ w !! "PYTHON_HTTP_STRATEGY" = Some name →
            name ≠ "httplib" → name ≠ "pycurl" → name ≠ "requests" →
            spec_resolve_strategy (os_environ w) (version_info w)
            = Raise (ValueError "invalid http strategy")).
  { intros name Hn ? ? ?. unfold spec_resolve_strategy, spec_strategy_of_name.
    rewrite Hn. by rewrite !decide_False. }
  assert (Hnew : unrecognized_override w →
            Configuration_new e m p s w = 
              (Raise (ValueError "invalid http strategy"),
               with_heap (heap w ++ [ConfigurationObj (init_attrs e m p s)]) w)).
  { intros (name & Hn & ? & ? & ?). rewrite Configuration_new_run. cbn zeta.
    by erewrite Hbad by done. }
  split; [|split; [|split; [|split; [split|] ] ] ].
  1-3: intros Hn; apply Hsel; unfold spec_resolve_strategy; by rewrite Hn.
  - intros [x Hx]. rewrite Configuration_new_run in Hx. cbn zeta in Hx.
    unfold spec_resolve_strategy, spec_strategy_of_name in Hx.
    destruct (os_environ w !! "PYTHON_HTTP_STRATEGY") as [name|] eqn:Hn.
    + exists name. split; [done|].
      repeat (case_decide; [by simpl in Hx|]). done.
    + case_decide; by simpl in Hx.
  - intros Hun. rewrite Hnew by done. by eexists.
  - intros Hun. split; [by rewrite Hnew|].
    destruct Hun as (name & Hn & ? & ? & ?).
    unfold configured_strategy.
    erewrite bind_ok by apply configure_run.
    set (w0 := with_cls _ w).
    destruct (configured_lookup e m p s u (cls w)) as (He & Hm & Hp & Hs & Hf & Hu).
    erewrite bind_raise; [done|].
    rewrite (instantiate_run w0 e m p s u) by done. cbn zeta.
    change (os_environ w0) with (os_environ w).
    change (version_info w0) with (version_info w). by erewrite Hbad by done.
Qed.

(** [configure] followed by [instantiate]. *)
Lemma configure_instantiate_run w e m p s u :
  (configure e m p s u ;; instantiate) w =
    let c := length (heap w) in
    let cl := configured e m p s u (cls w) in
    match spec_resolve_strategy (os_environ w) (version_info w) with
    | Ok k =>
        (Ok c,
         {| cls := if truthy u then cleared cl else cl;
            os_environ := os_environ w;
            version_info := version_info w;
            heap := heap w ++ [ConfigurationObj (<["_http_strategy" := PyRef (S c)]>
                                                   (init_attrs e m p s));
                               StrategyObj k c e] |})
    | Raise x =>
        (Raise x,
         {| cls := cl; os_environ := os_environ w; version_info := version_info w;
            heap := heap w ++ [ConfigurationObj (init_attrs e m p s)] |})
    end.
Proof.
  erewrite bind_ok by apply configure_run.
  destruct (configured_lookup e m p s u (cls w)) as (He & Hm & Hp & Hs & Hf & Hu).
  by rewrite (instantiate_run _ e m p s u).
Qed.

(** C5: when the override variable is absent or names a strategy,
    [configure] with any four values and any [use_once], followed by
    [instantiate], returns a snapshot whose [environment], [merchant_id],
    [public_key] and [private_key] are the four values given. *)
Theorem configure_instantiate_fields w e m p s u :
  valid_override w →
  let r := (configure e m p s u ;; instantiate) w in
  ∃ c, fst r = Ok c
       ∧ snapshot_field (snd r) c "environment" = Some e
       ∧ snapshot_field (snd r) c "merchant_id" = Some m
       ∧ snapshot_field (snd r) c "public_key" = Some p
       ∧ snapshot_field (snd r) c "private_key" = Some s.
Proof.
  intros [k Hk]%valid_override_resolves. cbn zeta.
  rewrite configure_instantiate_run. cbn zeta. rewrite Hk.
  exists (length (heap w)). simpl. split; [done|].
  rewrite !new_snapshot_field.
  destruct (init_attrs_lookup e m p s (PyRef (S (length (heap w)))))
    as (? & ? & ? & ? & _). done.
Qed.

(** C1: after [configure] with a true [use_once], an [instantiate] that
    returns a snapshot (it returns exactly when the override variable is
    absent or names a strategy) gives a snapshot holding the three
    credentials and leaves [None] in the class attributes [merchant_id],
    [public_key] and [private_key]; a further [instantiate] with these class
    attributes either raises or returns a snapshot whose three credentials
    are [None].  After [configure] with a false [use_once], [instantiate]
    leaves the class attributes, and so the credentials, as [configure] set
    them. *)
Theorem use_once_consumes_credentials w e m p s u :
  let w0 := snd (configure e m p s u w) in
  let r := instantiate w0 in
  ((∃ c, fst r = Ok c) ↔ valid_override w)
  ∧ (truthy u = true → ∀ c, fst r = Ok c →
       snapshot_field (snd r) c "merchant_id" = Some m
       ∧ snapshot_field (snd r) c "public_key" = Some p
       ∧ snapshot_field (snd r) c "private_key" = Some s
       ∧ cls (snd r) !! "merchant_id" = Some PyNone
       ∧ cls (snd r) !! "public_key" = Some PyNone
       ∧ cls (snd r) !! "private_key" = Some PyNone
       ∧ ∀ w', cls w' = cls (snd r) →
           let r' := instantiate w' in
           (∃ x, fst r' = Raise x)
           ∨ (∃ c', fst r' = Ok c'
                    ∧ snapshot_field (snd r') c' "merchant_id" = Some PyNone
                    ∧ snapshot_field (snd r') c' "public_key" = Some PyNone
                    ∧ snapshot_field (snd r') c' "private_key" = Some PyNone))
  ∧ (truthy u = false →
       cls (snd r) = cls w0
       ∧ cls (snd r) !! "merchant_id" = Some m
       ∧ cls (snd r) !! "public_key" = Some p
       ∧ cls (snd r) !! "private_key" = Some s).
Proof.
  cbn zeta.
  destruct (configured_lookup e m p s u (cls w)) as (He & Hm & Hp & Hs & Hf & Hu).
  change (instantiate (snd (configure e m p s u w)))
    with ((configure e m p s u ;; instantiate) w).
  split; [|split].
  - rewrite valid_override_resolves, configure_instantiate_run. cbn zeta.
    destruct (spec_resolve_strategy _ _) as [k|x]; simpl.
    + split; eauto.
    + split; [intros [c Hc]; done|intros [k Hk]; done].
  - intros Ht c. rewrite configure_instantiate_run. cbn zeta.
    destruct (spec_resolve_strategy _ _) as [k|x]; [|done].
    rewrite Ht. simpl. intros [= <-].
    rewrite !new_snapshot_field.
    destruct (init_attrs_lookup e m p s (PyRef (S (length (heap w)))))
      as (_ & -> & -> & -> & _).
    do 3 (split; [done|]).
    do 3 (split; [apply cleared_lookup_credential; unfold credential_names; set_solver|]).
    intros w' Hw'.
    assert (Hcl : ∀ name, name ∉ credential_names →
              cls w' !! name = configured e m p s u (cls w) !! name).
    { intros name Hn. by rewrite Hw', cleared_lookup_other. }
    assert (Hcr : ∀ name, name ∈ credential_names → cls w' !! name = Some PyNone).
    { intros name Hn. by rewrite Hw', cleared_lookup_credential. }
    rewrite (instantiate_run w' e PyNone PyNone PyNone u).
    + cbn zeta.
      destruct (spec_resolve_strategy (os_environ w') _) as [k'|x];
        [right|left; by eexists].
      exists (length (heap w')). simpl. split; [done|].
      rewrite !new_snapshot_field.
      destruct (init_attrs_lookup e PyNone PyNone PyNone (PyRef (S (length (heap w')))))
        as (_ & ? & ? & ? & _). done.
    + by rewrite Hcl by by apply not_credential.
    + apply Hcr. unfold credential_names. set_solver.
    + apply Hcr. unfold credential_names. set_solver.
    + apply Hcr. unfold credential_names. set_solver.
    + by rewrite Hcl by by apply not_credential.
  - intros Ht.
    assert (Hc : cls (snd ((configure e m p s u ;; instantiate) w))
                 = configured e m p s u (cls w)).
    { change ((configure e m p s u ;; instantiate) w)
        with (instantiate (snd (configure e m p s u w))).
      destruct (instantiate_cls (snd (configure e m p s u w)))
        as [->|(u' & Hu' & Ht' & _)]; [done|].
      change (cls (snd (configure e m p s u w)))
        with (configured e m p s u (cls w)) in Hu'.
      congruence. }
    rewrite Hc. done.
Qed.

(** * The properties at concrete inputs *)

(** One-shot credentials on the sandbox account: the snapshot has them, the
    class no longer does. *)
Lemma use_once_consumes_credentials_witness :
  snapshot_field (instantiated_m1 true world0) 0 "merchant_id" = Some (PyStr "m1")
  ∧ snapshot_field (instantiated_m1 true world0) 0 "public_key" = Some (PyStr "pub1")
  ∧ snapshot_field (instantiated_m1 true world0) 0 "private_key" = Some (PyStr "priv1")
  ∧ cls (instantiated_m1 true world0) !! "merchant_id" = Some PyNone
  ∧ cls (instantiated_m1 true world0) !! "public_key" = Some PyNone
  ∧ cls (instantiated_m1 true world0) !! "private_key" = Some PyNone.
Proof.
  destruct (use_once_consumes_credentials world0 (PyEnv sandbox) (PyStr "m1")
              (PyStr "pub1") (PyStr "priv1") (PyBool true)) as (_ & Hon & _).
  destruct (Hon eq_refl 0 eq_refl) as (H1 & H2 & H3 & H4 & H5 & H6 & _).
  repeat split; assumption.
Defined.

(** The snapshot cached a pycurl strategy; with [use_unsafe_ssl] on,
    [http_strategy] hands out a new httplib strategy. *)
Lemma http_strategy_unsafe_witness :
  strategy_kind unsafe_world (PyRef 1) = Some PycurlStrategy
  ∧ fst (http_strategy 0 unsafe_world) = Ok (PyRef 2)
  ∧ strategy_kind (snd (http_strategy 0 unsafe_world)) (PyRef 2) = Some HttplibStrategy.
Proof.
  split; [vm_compute; reflexivity|].
  assert (He : snapshot_field unsafe_world 0 "environment" = Some (PyEnv sandbox))
    by (vm_compute; reflexivity).
  assert (Hu : cls unsafe_world !! "use_unsafe_ssl" = Some (PyBool true))
    by (vm_compute; reflexivity).
  destruct (http_strategy_unsafe unsafe_world 0 (PyEnv sandbox) (PyBool true)
              He Hu eq_refl) as [Hr Hk].
  split; [by rewrite Hr|exact Hk].
Defined.

(** Under Python 2.5 the constructor picks pycurl, and an override set after
    the construction changes nothing. *)
Lemma strategy_resolved_once_witness :
  fst (Configuration_new (PyEnv sandbox) (PyStr "m1") (PyStr "pub1") (PyStr "priv1") world25)
  = Ok 0
  ∧ strategy_kind
      (snd (Configuration_new (PyEnv sandbox) (PyStr "m1") (PyStr "pub1") (PyStr "priv1")
              world25)) (PyRef 1) = Some PycurlStrategy
  ∧ http_strategy 0 (with_override "httplib" (instantiated_m1 false world25))
    = (Ok (PyRef 1), with_override "httplib" (instantiated_m1 false world25)).
Proof.
  pose proof (strategy_resolved_once world25 (PyEnv sandbox) (PyStr "m1")
                (PyStr "pub1") (PyStr "priv1")) as H.
  cbn zeta in H.
  change (spec_resolve_strategy (os_environ world25) (version_info world25))
    with (Ok PycurlStrategy) in H.
  destruct H as (H1 & H2 & H3).
  split; [exact H1|]. split.
  - unfold strategy_kind. by rewrite H2.
  - apply (H3 _ (PyBool false)); vm_compute; reflexivity.
Defined.

(** The override [pycurl] is honoured, the override [invalid-name] raises. *)
Lemma override_selects_strategy_witness :
  caches (Configuration_new (PyEnv sandbox) (PyStr "m1") (PyStr "pub1") (PyStr "priv1")
            (with_override "pycurl" world0)) PycurlStrategy
  ∧ fst (Configuration_new (PyEnv sandbox) (PyStr "m1") (PyStr "pub1") (PyStr "priv1")
           (with_override "invalid-name" world0))
    = Raise (ValueError "invalid http strategy").
Proof.
  split.
  - destruct (override_selects_strategy (with_override "pycurl" world0)
                (PyEnv sandbox) (PyStr "m1") (PyStr "pub1") (PyStr "priv1") (PyBool false))
      as (_ & Hp & _).
    exact (proj1 (Hp eq_refl)).
  - destruct (override_selects_strategy (with_override "invalid-name" world0)
                (PyEnv sandbox) (PyStr "m1") (PyStr "pub1") (PyStr "priv1") (PyBool false))
      as (_ & _ & _ & _ & Hbad).
    apply Hbad. exists "invalid-name". by repeat split.
Defined.

(** The sandbox account, configured and instantiated in [world0]. *)
Lemma configure_instantiate_fields_witness :
  ∃ c, fst ((configure (PyEnv sandbox) (PyStr "m1") (PyStr "pub1") (PyStr "priv1")
               (PyBool true) ;; instantiate) world0) = Ok c
       ∧ snapshot_field (instantiated_m1 true world0) c "environment" = Some (PyEnv sandbox)
       ∧ snapshot_field (instantiated_m1 true world0) c "merchant_id" = Some (PyStr "m1")
       ∧ snapshot_field (instantiated_m1 true world0) c "public_key" = Some (PyStr "pub1")
       ∧ snapshot_field (instantiated_m1 true world0) c "private_key" = Some (PyStr "priv1").
Proof.
  apply (configure_instantiate_fields world0).
  intros name Hn. vm_compute in Hn. discriminate Hn.
Defined.

(** The example scenario of the specification. *)
Lemma base_merchant_url_spec_witness :
  base_merchant_url 0 (instantiated_m1 false world0)
  = (Ok (PyStr "https://sandbox.example.com:443/merchants/m1"), instantiated_m1 false world0).
Proof.
  rewrite (base_merchant_url_spec (instantiated_m1 false world0) 0 sandbox)
    by (vm_compute; reflexivity).
  vm_compute. reflexivity.
Defined.

(** The path of merchant [m1]. *)
Lemma base_merchant_path_spec_witness :
  base_merchant_path 0 (instantiated_m1 false world0)
  = (Ok (PyStr "/merchants/m1"), instantiated_m1 false world0).
Proof.
  apply (base_merchant_path_spec (instantiated_m1 false world0) 0 "m1").
  vm_compute. reflexivity.
Defined.

(** [_request_complete] with [use_once] on, and with [use_once] off. *)
Lemma request_complete_spec_witness :
  snapshot_field (snd (_request_complete 0 (instantiated_m1 true world0))) 0 "merchant_id"
  = Some PyNone
  ∧ snd (_request_complete 0 (instantiated_m1 false world0)) = instantiated_m1 false world0.
Proof.
  split.
  - rewrite (request_complete_spec (instantiated_m1 true world0) 0
               (<["_http_strategy" := PyRef 1]>
                  (init_attrs (PyEnv sandbox) (PyStr "m1") (PyStr "pub1") (PyStr "priv1")))
               (PyBool true)) by (vm_compute; reflexivity).
    vm_compute. reflexivity.
  - rewrite (request_complete_spec (instantiated_m1 false world0) 0
               (<["_http_strategy" := PyRef 1]>
                  (init_attrs (PyEnv sandbox) (PyStr "m1") (PyStr "pub1") (PyStr "priv1")))
               (PyBool false)) by (vm_compute; reflexivity).
    reflexivity.
Defined.

(** Without [use_once], [instantiate] leaves the class as [configure] set it. *)
Lemma instantiate_class_frame_witness :
  cls (instantiated_m1 false world0) = cls (configure_m1 false world0).
Proof.
  destruct (instantiate_class_frame (configure_m1 false world0)) as (_ & _ & _ & _ & H).
  apply (H (PyBool false)); vm_compute; reflexivity.
Defined.

(** * Further properties of the code *)

(** ** Helper lemmas *)

Lemma resolve_raise w x :
  spec_resolve_strategy (os_environ w) (version_info w) = Raise x →
  x = ValueError "invalid http strategy" ∧ unrecognized_override w.
Proof.
  unfold spec_resolve_strategy, spec_strategy_of_name, unrecognized_override.
  destruct (os_environ w !! "PYTHON_HTTP_STRATEGY") as [name|] eqn:Hn.
  - repeat (case_decide; [done|]). intros [= <-]. split; [done|]. by exists name.
  - by case_decide.
Qed.

Lemma unrecognized_not_valid w : unrecognized_override w → ¬ valid_override w.
Proof.
  intros (name & Hn & ? & ? & ?) Hv. destruct (Hv name Hn) as [?|[?|?]]; done.
Qed.

Lemma class_getattr_some w name v :
  cls w !! name = Some v → class_getattr name w = (Ok v, w).
Proof. intros H. unfold class_getattr. by rewrite H. Qed.

Lemma class_getattr_none w name :
  cls w !! name = None → class_getattr name w = (Raise (AttributeError name), w).
Proof. intros H. unfold class_getattr. by rewrite H. Qed.

(** [instantiate] in every state: what it returns or raises, and the state
    it leaves. *)
Lemma instantiate_cases w :
  (∃ name, first_missing (cls w) instantiate_reads = Some name
           ∧ instantiate w = (Raise (AttributeError name), w))
  ∨ (∃ e m p s,
       cls w !! "environment" = Some e ∧ cls w !! "merchant_id" = Some m
       ∧ cls w !! "public_key" = Some p ∧ cls w !! "private_key" = Some s
       ∧ first_missing (cls w) instantiate_reads = None
       ∧ match spec_resolve_strategy (os_environ w) (version_info w) with
         | Raise x =>
             instantiate w =
               (Raise x, with_heap (heap w ++ [ConfigurationObj (init_attrs e m p s)]) w)
         | Ok k =>
             let new :=
               [ConfigurationObj (<["_http_strategy" := PyRef (S (length (heap w)))]>
                                    (init_attrs e m p s));
                StrategyObj k (length (heap w)) e] in
             match cls w !! "use_once" with
             | None =>
                 instantiate w =
                   (Raise (AttributeError "use_once"), with_heap (heap w ++ new) w)
             | Some u =>
                 instantiate w =
                   (Ok (length (heap w)),
                    {| cls := if truthy u then cleared (cls w) else cls w;
                       os_environ := os_environ w;
                       version_info := version_info w;
                       heap := heap w ++ new |})
             end
         end).
Proof.
  unfold first_missing, instantiate_reads. simpl.
  destruct (cls w !! "environment") as [e|] eqn:He;
    [|left; eexists; split; [done|]; unfold instantiate;
      by erewrite bind_raise by by apply class_getattr_none].
  destruct (cls w !! "merchant_id") as [m|] eqn:Hm;
    [|left; eexists; split; [done|]; unfold instantiate;
      erewrite bind_ok by (by apply class_getattr_some);
      by erewrite bind_raise by by apply class_getattr_none].
  destruct (cls w !! "public_key") as [p|] eqn:Hp;
    [|left; eexists; split; [done|]; unfold instantiate;
      do 2 (erewrite bind_ok by (by apply class_getattr_some));
      by erewrite bind_raise by by apply class_getattr_none].
  destruct (cls w !! "private_key") as [s|] eqn:Hs;
    [|left; eexists; split; [done|]; unfold instantiate;
      do 3 (erewrite bind_ok by (by apply class_getattr_some));
      by erewrite bind_raise by by apply class_getattr_none].
  right. exists e, m, p, s. do 5 (split; [done|]).
  pose proof (Configuration_new_run w e m p s) as Hn. cbn zeta in Hn.
  destruct (spec_resolve_strategy _ _) as [k|x] eqn:Hk.
  - cbn zeta. destruct (cls w !! "use_once") as [u|] eqn:Hu.
    + rewrite (instantiate_run w e m p s u) by done. cbn zeta. by rewrite Hk.
    + unfold instantiate.
      do 4 (erewrite bind_ok by (by apply class_getattr_some)).
      erewrite bind_ok by exact Hn.
      by erewrite bind_raise by (by apply class_getattr_none).
  - unfold instantiate.
    do 4 (erewrite bind_ok by (by apply class_getattr_some)).
    by erewrite bind_raise by exact Hn.
Qed.

Lemma first_missing_all w :
  first_missing (cls w) instantiate_reads_all = None ↔
  first_missing (cls w) instantiate_reads = None ∧ is_Some (cls w !! "use_once").
Proof.
  unfold first_missing, instantiate_reads_all, instantiate_reads. simpl.
  repeat (case_bool_decide; [by split; [|intros [? _] ]|]).
  case_bool_decide as Hu.
  - rewrite Hu. split; [done|]. by intros [_ [? ?]].
  - split; [|done]. intros _. split; [done|].
    by destruct (cls w !! "use_once"); [eexists|].
Qed.

(** ** [instantiate]: errors and frame *)

(** X1: when one of the class attributes [environment], [merchant_id],
    [public_key], [private_key] is missing (nothing was configured),
    [instantiate] raises [AttributeError] for the first missing one, in that
    order, and changes nothing: no object is made. *)
Theorem instantiate_unconfigured w name :
  first_missing (cls w) instantiate_reads = Some name →
  instantiate w = (Raise (AttributeError name), w).
Proof.
  intros Hf. destruct (instantiate_cases w) as [(n & Hn & Hr)|(e & m & p & s & H)].
  - congruence.
  - destruct H as (_ & _ & _ & _ & Hnone & _). congruence.
Qed.

Lemma instantiate_unconfigured_witness :
  instantiate world0 = (Raise (AttributeError "environment"), world0).
Proof. apply (instantiate_unconfigured world0 "environment"). reflexivity. Defined.

(** X2: [instantiate] returns a snapshot exactly when the five class
    attributes it reads are all there and the override variable is absent or
    names one of the three strategies. *)
Theorem instantiate_returns_iff w :
  (∃ c, fst (instantiate w) = Ok c) ↔
  first_missing (cls w) instantiate_reads_all = None ∧ valid_override w.
Proof.
  rewrite first_missing_all, valid_override_resolves.
  destruct (instantiate_cases w) as [(n & Hn & ->)|(e & m & p & s & H)].
  - split; [by intros [c Hc]|]. intros [[Hnone _] _]. congruence.
  - destruct H as (_ & _ & _ & _ & Hnone & Hr).
    destruct (spec_resolve_strategy _ _) as [k|x].
    + cbn zeta in Hr. destruct (cls w !! "use_once") as [u|]; rewrite Hr; simpl.
      * split; [|by eauto]. intros _. eauto.
      * split; [by intros [c Hc]|]. by intros [[_ [? ?]] _].
    + rewrite Hr. split; [by intros [c Hc]|]. by intros [_ [k ?]].
Qed.

(** X3: whatever [instantiate] raises is an [AttributeError] for a class
    attribute it reads and that is missing, or the [ValueError] of an
    override variable that names no strategy. *)
Theorem instantiate_raises_only w x :
  fst (instantiate w) = Raise x →
  (∃ name, x = AttributeError name ∧ name ∈ instantiate_reads_all
           ∧ cls w !! name = None)
  ∨ (x = ValueError "invalid http strategy" ∧ unrecognized_override w).
Proof.
  destruct (instantiate_cases w) as [(n & Hn & ->)|(e & m & p & s & H)].
  - intros [= <-]. left. exists n. split; [done|].
    unfold first_missing in Hn. apply find_some in Hn as [Hin Hb].
    apply bool_decide_eq_true in Hb. split; [|done].
    unfold instantiate_reads_all. apply elem_of_app. left. by apply list_elem_of_In.
  - destruct H as (_ & _ & _ & _ & _ & Hr).
    destruct (spec_resolve_strategy _ _) as [k|y] eqn:Hk.
    + cbn zeta in Hr. destruct (cls w !! "use_once") as [u|] eqn:Hu; rewrite Hr; [done|].
      intros [= <-]. left. exists "use_once". split; [done|]. split; [|done].
      unfold instantiate_reads_all, instantiate_reads. set_solver.
    + rewrite Hr. intros [= <-]. right. by apply resolve_raise.
Qed.

Lemma instantiate_raises_only_witness :
  (∃ name, ValueError "invalid http strategy" = AttributeError name
           ∧ name ∈ instantiate_reads_all
           ∧ cls (configure_m1 true (with_override "invalid-name" world0)) !! name = None)
  ∨ (ValueError "invalid http strategy" = ValueError "invalid http strategy"
     ∧ unrecognized_override (configure_m1 true (with_override "invalid-name" world0))).
Proof.
  apply (instantiate_raises_only (configure_m1 true (with_override "invalid-name" world0))).
  vm_compute. reflexivity.
Defined.

(** X4: an [instantiate] that raises leaves every class attribute as it
    was; in particular a failed [instantiate] never uses up the credentials
    of a [use_once] configuration. *)
Theorem instantiate_failure_keeps_class w x :
  fst (instantiate w) = Raise x →
  cls (snd (instantiate w)) = cls w.
Proof.
  destruct (instantiate_cases w) as [(n & Hn & ->)|(e & m & p & s & H)]; [done|].
  destruct H as (_ & _ & _ & _ & _ & Hr).
  destruct (spec_resolve_strategy _ _) as [k|y]; [|by rewrite Hr].
  cbn zeta in Hr. by destruct (cls w !! "use_once") as [u|]; rewrite Hr.
Qed.

Lemma instantiate_failure_keeps_class_witness :
  cls (instantiated_m1 true (with_override "invalid-name" world0)) !! "private_key"
  = Some (PyStr "priv1").
Proof.
  unfold instantiated_m1.
  rewrite (instantiate_failure_keeps_class
             (configure_m1 true (with_override "invalid-name" world0))
             (ValueError "invalid http strategy")) by (vm_compute; reflexivity).
  vm_compute. reflexivity.
Defined.

(** X5: [instantiate] only adds objects: the objects there before are all
    there after, unchanged and under the same references, on every path; the
    snapshot it returns is under a reference that was free before. *)
Theorem instantiate_extends_heap w :
  heap w `prefix_of` heap (snd (instantiate w))
  ∧ ∀ c, fst (instantiate w) = Ok c →
         heap w !! c = None ∧ is_Some (heap (snd (instantiate w)) !! c).
Proof.
  destruct (instantiate_cases w) as [(n & Hn & ->)|(e & m & p & s & H)]; [done|].
  destruct H as (_ & _ & _ & _ & _ & Hr).
  assert (Hfresh : heap w !! length (heap w) = None) by by apply lookup_ge_None.
  destruct (spec_resolve_strategy _ _) as [k|y].
  - cbn zeta in Hr. destruct (cls w !! "use_once") as [u|]; rewrite Hr; simpl.
    + split; [by apply prefix_app_r|]. intros c [= <-]. split; [done|].
      rewrite list_lookup_middle by done. by eexists.
    + split; [by apply prefix_app_r|done].
  - rewrite Hr. simpl. split; [by apply prefix_app_r|done].
Qed.

Lemma instantiate_configured_run w e m p s u k :
  spec_resolve_strategy (os_environ w) (version_info w) = Ok k →
  instantiate (with_cls (configured e m p s u (cls w)) w) =
    (Ok (length (heap w)),
     {| cls := if truthy u then cleared (configured e m p s u (cls w))
               else configured e m p s u (cls w);
        os_environ := os_environ w;
        version_info := version_info w;
        heap := heap w ++ [ConfigurationObj
                             (<["_http_strategy" := PyRef (S (length (heap w)))]>
                                (init_attrs e m p s));
                           StrategyObj k (length (heap w)) e] |}).
Proof.
  intros Hk. pose proof (configure_instantiate_run w e m p s u) as H.
  cbn zeta in H. rewrite Hk in H. exact H.
Qed.

Lemma snapshot_field_at cl env ver h attrs t name :
  snapshot_field {| cls := cl; os_environ := env; version_info := ver;
                    heap := (h ++ ConfigurationObj attrs :: t) |} (length h) name
  = attrs !! name.
Proof. apply new_snapshot_field. Qed.

Lemma snapshot_field_first cl env ver h attrs t h' name :
  snapshot_field {| cls := cl; os_environ := env; version_info := ver;
                    heap := (h ++ ConfigurationObj attrs :: t) ++ h' |} (length h) name
  = attrs !! name.
Proof.
  unfold snapshot_field. simpl. rewrite <- app_assoc. simpl.
  by rewrite list_lookup_middle.
Qed.

Lemma configured_twice a1 a2 a3 a4 a5 b1 b2 b3 b4 b5 (c : gmap string pyval) :
  configured b1 b2 b3 b4 b5 (configured a1 a2 a3 a4 a5 c) = configured b1 b2 b3 b4 b5 c.
Proof.
  apply map_eq. intros name. unfold configured.
  destruct (decide (name = "use_once")) as [->|]; [by simplify_map_eq|].
  destruct (decide (name = "use_unsafe_ssl")) as [->|]; [by simplify_map_eq|].
  destruct (decide (name = "private_key")) as [->|]; [by simplify_map_eq|].
  destruct (decide (name = "public_key")) as [->|]; [by simplify_map_eq|].
  destruct (decide (name = "merchant_id")) as [->|]; [by simplify_map_eq|].
  destruct (decide (name = "environment")) as [->|]; [by simplify_map_eq|].
  by rewrite !lookup_insert_ne.
Qed.

(** ** [configure] and [instantiate] together *)

(** X6: snapshots are copies.  Configuring a second account after a
    snapshot of the first was taken, and taking a snapshot of the second,
    gives two different objects: the first still holds the first account's
    four values, the second holds the second account's, and each has a
    strategy object of its own. *)
Theorem snapshots_are_copies w eA mA pA sA uA eB mB pB sB uB :
  valid_override w →
  ∃ c1 c2 w',
    two_tenants eA mA pA sA uA eB mB pB sB uB w = (Ok (c1, c2), w')
    ∧ c1 ≠ c2
    ∧ snapshot_field w' c1 "environment" = Some eA
    ∧ snapshot_field w' c1 "merchant_id" = Some mA
    ∧ snapshot_field w' c1 "public_key" = Some pA
    ∧ snapshot_field w' c1 "private_key" = Some sA
    ∧ snapshot_field w' c2 "environment" = Some eB
    ∧ snapshot_field w' c2 "merchant_id" = Some mB
    ∧ snapshot_field w' c2 "public_key" = Some pB
    ∧ snapshot_field w' c2 "private_key" = Some sB
    ∧ snapshot_field w' c1 "_http_strategy" ≠ snapshot_field w' c2 "_http_strategy".
Proof.
  intros [k Hk]%valid_override_resolves. unfold two_tenants.
  erewrite bind_ok by apply configure_run.
  erewrite bind_ok by (by apply instantiate_configured_run).
  erewrite bind_ok by apply configure_run.
  erewrite bind_ok by (by apply instantiate_configured_run).
  eexists _, _, _. split; [reflexivity|].
  simpl. rewrite !snapshot_field_at, !snapshot_field_first.
  destruct (init_attrs_lookup eA mA pA sA (PyRef (S (length (heap w)))))
    as (-> & -> & -> & -> & ->).
  destruct (init_attrs_lookup eB mB pB sB
              (PyRef (S (length (heap w ++
                 [ConfigurationObj (<["_http_strategy" := PyRef (S (length (heap w)))]>
                                      (init_attrs eA mA pA sA));
                  StrategyObj k (length (heap w)) eA])))))
    as (-> & -> & -> & -> & ->).
  rewrite length_app. simpl.
  split; [lia|]. do 8 (split; [done|]). intros [= H]. lia.
Qed.

Lemma snapshots_are_copies_witness :
  ∃ c1 c2 w',
    two_tenants (PyEnv sandbox) (PyStr "m1") (PyStr "pub1") (PyStr "priv1") (PyBool true)
      (PyEnv sandbox) (PyStr "m2") (PyStr "pub2") (PyStr "priv2") (PyBool true) world0
    = (Ok (c1, c2), w')
    ∧ c1 ≠ c2
    ∧ snapshot_field w' c1 "environment" = Some (PyEnv sandbox)
    ∧ snapshot_field w' c1 "merchant_id" = Some (PyStr "m1")
    ∧ snapshot_field w' c1 "public_key" = Some (PyStr "pub1")
    ∧ snapshot_field w' c1 "private_key" = Some (PyStr "priv1")
    ∧ snapshot_field w' c2 "environment" = Some (PyEnv sandbox)
    ∧ snapshot_field w' c2 "merchant_id" = Some (PyStr "m2")
    ∧ snapshot_field w' c2 "public_key" = Some (PyStr "pub2")
    ∧ snapshot_field w' c2 "private_key" = Some (PyStr "priv2")
    ∧ snapshot_field w' c1 "_http_strategy" ≠ snapshot_field w' c2 "_http_strategy".
Proof.
  apply (snapshots_are_copies world0).
  intros name Hn. vm_compute in Hn. discriminate Hn.
Defined.

(** X7: the constructor neither reads nor writes the class attributes: with
    other class attributes it returns or raises the same and builds the same
    objects.  So it works before any [configure], and an override variable
    that names no strategy makes it raise whatever [use_unsafe_ssl] is. *)
Theorem Configuration_new_ignores_class w cl e m p s :
  Configuration_new e m p s (with_cls cl w) =
    (fst (Configuration_new e m p s w),
     with_cls cl (snd (Configuration_new e m p s w))).
Proof.
  rewrite !Configuration_new_run. cbn zeta.
  change (os_environ (with_cls cl w)) with (os_environ w).
  change (version_info (with_cls cl w)) with (version_info w).
  by destruct (spec_resolve_strategy _ _).
Qed.

(** X8: a second [configure] replaces everything the first one set: the
    two calls in a row leave the same state as the second call alone, and
    [configure] makes or changes no object. *)
Theorem configure_last_wins w a1 a2 a3 a4 a5 b1 b2 b3 b4 b5 :
  (configure a1 a2 a3 a4 a5 ;; configure b1 b2 b3 b4 b5) w = configure b1 b2 b3 b4 b5 w
  ∧ heap (snd (configure b1 b2 b3 b4 b5 w)) = heap w.
Proof.
  split; [|done].
  erewrite bind_ok by apply configure_run.
  rewrite !configure_run. unfold with_cls. simpl. by rewrite configured_twice.
Qed.

(** ** The accessors *)

Lemma keeps_state_bind {A B} (m : M A) (k : A → M B) :
  keeps_state m → (∀ a, keeps_state (k a)) → keeps_state (bind m k).
Proof.
  intros Hm Hk w. unfold bind. specialize (Hm w).
  destruct (m w) as [[a|x] w1]; simpl in Hm; subst w1; [apply Hk|done].
Qed.

Lemma keeps_state_getattr self name : keeps_state (getattr self name).
Proof.
  intros w. unfold getattr, class_getattr. by repeat case_match.
Qed.

Lemma keeps_state_value_getattr v name : keeps_state (value_getattr v name).
Proof.
  intros w. unfold value_getattr, ret, raise. by repeat case_match.
Qed.

Lemma keeps_state_py_add a b : keeps_state (py_add a b).
Proof.
  intros w. unfold py_add, ret, raise. by repeat case_match.
Qed.

Lemma keeps_state_base_merchant_path c : keeps_state (base_merchant_path c).
Proof.
  apply keeps_state_bind; [apply keeps_state_getattr|].
  intros v. apply keeps_state_py_add.
Qed.

(** X9: for a snapshot whose [merchant_id] is anything but a string ([None]
    after the credentials were cleared, a number, ...), [base_merchant_path]
    raises [TypeError] and changes nothing. *)
Theorem base_merchant_path_not_str w c v :
  snapshot_field w c "merchant_id" = Some v →
  (∀ mid, v ≠ PyStr mid) →
  base_merchant_path c w = (Raise TypeError, w).
Proof.
  intros Hv Hns. unfold base_merchant_path.
  erewrite bind_ok by (by apply getattr_snapshot_field).
  destruct v; try done. by destruct (Hns s).
Qed.

Lemma base_merchant_path_not_str_witness :
  base_merchant_path 0
    (snd (Configuration_new (PyEnv sandbox) (PyInt 42) PyNone PyNone world0))
  = (Raise TypeError,
     snd (Configuration_new (PyEnv sandbox) (PyInt 42) PyNone PyNone world0)).
Proof.
  apply (base_merchant_path_not_str _ 0 (PyInt 42)).
  - vm_compute. reflexivity.
  - intros mid. discriminate.
Defined.

(** X10: [base_merchant_path] and [base_merchant_url] never change the state,
    on any reference and whether they return or raise. *)
Theorem accessors_keep_state w c :
  snd (base_merchant_path c w) = w ∧ snd (base_merchant_url c w) = w.
Proof.
  split; [apply keeps_state_base_merchant_path|].
  revert w. change (keeps_state (base_merchant_url c)).
  unfold base_merchant_url.
  apply keeps_state_bind; [apply keeps_state_getattr|intros e1].
  apply keeps_state_bind; [apply keeps_state_value_getattr|intros p].
  apply keeps_state_bind; [apply keeps_state_getattr|intros e2].
  apply keeps_state_bind; [apply keeps_state_value_getattr|intros sp].
  apply keeps_state_bind; [apply keeps_state_py_add|intros a].
  apply keeps_state_bind; [apply keeps_state_base_merchant_path|intros path].
  apply keeps_state_py_add.
Qed.



(** ** [_request_complete] *)

Lemma setattr_not_configuration w self name v :
  (∀ attrs, heap w !! self ≠ Some (ConfigurationObj attrs)) →
  setattr self name v w = (Raise (AttributeError name), w).
Proof.
  intros H. unfold setattr.
  destruct (heap w !! self) as [[attrs|]|]; [by destruct (H attrs)|done..].
Qed.

(** [_request_complete] in every state. *)
Lemma request_complete_run w c :
  _request_complete c w =
    match cls w !! "use_once" with
    | None => (Raise (AttributeError "use_once"), w)
    | Some u =>
        if truthy u then
          match heap w !! c with
          | Some (ConfigurationObj attrs) =>
              (Ok tt, with_heap (<[c := ConfigurationObj (cleared attrs)]> (heap w)) w)
          | _ => (Raise (AttributeError "merchant_id"), w)
          end
        else (Ok tt, w)
    end.
Proof.
  unfold _request_complete.
  destruct (cls w !! "use_once") as [u|] eqn:Hu;
    [|by erewrite bind_raise by (by apply class_getattr_none)].
  erewrite bind_ok by (by apply class_getattr_some).
  destruct (truthy u); [|done].
  destruct (heap w !! c) as [o|] eqn:Hc.
  - destruct o as [attrs|k cfg e].
    + apply list_elem_of_split_length in Hc as (h & t & Hh & ->).
      do 2 (erewrite bind_ok; [|by eapply setattr_middle]).
      erewrite setattr_middle by done.
      rewrite Hh, insert_app_r_alt, Nat.sub_diag by done. done.
    + by erewrite bind_raise by (apply setattr_not_configuration; congruence).
  - by erewrite bind_raise by (apply setattr_not_configuration; congruence).
Qed.

Lemma cleared_idemp (c : gmap string pyval) : cleared (cleared c) = cleared c.
Proof.
  apply map_eq. intros name.
  destruct (decide (name ∈ credential_names)).
  - by rewrite !cleared_lookup_credential.
  - by rewrite cleared_lookup_other.
Qed.

(** X12: once [_request_complete] has run under a true [use_once], the
    snapshot is of no more use for building paths: [base_merchant_path]
    raises [TypeError]; its [environment] and its cached strategy are kept. *)
Theorem request_complete_consumes w c attrs u :
  heap w !! c = Some (ConfigurationObj attrs) →
  cls w !! "use_once" = Some u →
  truthy u = true →
  let w' := snd (_request_complete c w) in
  base_merchant_path c w' = (Raise TypeError, w')
  ∧ snapshot_field w' c "environment" = attrs !! "environment"
  ∧ snapshot_field w' c "_http_strategy" = attrs !! "_http_strategy".
Proof.
  intros Hc Hu Ht. cbn zeta. rewrite request_complete_run, Hu, Ht, Hc. simpl.
  assert (Hl : <[c := ConfigurationObj (cleared attrs)]> (heap w) !! c
               = Some (ConfigurationObj (cleared attrs))).
  { apply list_lookup_insert_eq. by eapply lookup_lt_Some. }
  assert (Hf : ∀ name,
            snapshot_field
              (with_heap (<[c := ConfigurationObj (cleared attrs)]> (heap w)) w) c name
            = cleared attrs !! name).
  { intros name. unfold snapshot_field. simpl. by rewrite Hl. }
  split; [|split].
  - unfold base_merchant_path.
    erewrite bind_ok.
    2:{ apply getattr_snapshot_field. rewrite Hf.
        apply cleared_lookup_credential. unfold credential_names. set_solver. }
    done.
  - rewrite Hf. by apply cleared_lookup_other, not_credential.
  - rewrite Hf. by apply cleared_lookup_other, not_credential.
Qed.

Lemma request_complete_consumes_witness :
  base_merchant_path 0 (snd (_request_complete 0 (instantiated_m1 true world0)))
  = (Raise TypeError, snd (_request_complete 0 (instantiated_m1 true world0)))
  ∧ snapshot_field (snd (_request_complete 0 (instantiated_m1 true world0))) 0 "environment"
    = Some (PyEnv sandbox)
  ∧ snapshot_field (snd (_request_complete 0 (instantiated_m1 true world0))) 0
      "_http_strategy" = Some (PyRef 1).
Proof.
  destruct (request_complete_consumes (instantiated_m1 true world0) 0
              (<["_http_strategy" := PyRef 1]>
                 (init_attrs (PyEnv sandbox) (PyStr "m1") (PyStr "pub1") (PyStr "priv1")))
              (PyBool true)) as (H1 & H2 & H3); [vm_compute; reflexivity..|].
  split; [exact H1|].
  split; [rewrite H2|rewrite H3]; vm_compute; reflexivity.
Defined.

(** X13: [_request_complete] touches nothing but the snapshot it is called
    on: the class attributes, the number of objects and every other object
    stay as they were, in every state; and running it a second time changes
    nothing more. *)
Theorem request_complete_frame w c :
  let w' := snd (_request_complete c w) in
  cls w' = cls w
  ∧ length (heap w') = length (heap w)
  ∧ (∀ l, l ≠ c → heap w' !! l = heap w !! l)
  ∧ snd (_request_complete c w') = w'.
Proof.
  cbn zeta.
  assert (Hsame : snd (_request_complete c w) = w →
            cls (snd (_request_complete c w)) = cls w
            ∧ length (heap (snd (_request_complete c w))) = length (heap w)
            ∧ (∀ l, l ≠ c → heap (snd (_request_complete c w)) !! l = heap w !! l)
            ∧ snd (_request_complete c (snd (_request_complete c w)))
              = snd (_request_complete c w)).
  { intros Heq. by rewrite !Heq. }
  pose proof (request_complete_run w c) as Hr.
  destruct (cls w !! "use_once") as [u|] eqn:Hu; [|apply Hsame; by rewrite Hr].
  destruct (truthy u) eqn:Ht; [|apply Hsame; by rewrite Hr].
  destruct (heap w !! c) as [[attrs|k cfg e]|] eqn:Hc;
    [|apply Hsame; by rewrite Hr..].
  rewrite Hr. cbn [snd]. unfold with_heap. cbn [cls heap].
  split; [done|]. split; [by rewrite length_insert|].
  split; [intros l Hl; by rewrite list_lookup_insert_ne|].
  rewrite request_complete_run. cbn [cls heap]. rewrite Hu, Ht.
  rewrite list_lookup_insert_eq by by eapply lookup_lt_Some.
  cbn [snd]. unfold with_heap. cbn [cls heap os_environ version_info].
  by rewrite list_insert_insert_eq, cleared_idemp.
Qed.

(** ** [http_strategy] *)

(** [http_strategy] with a true [use_unsafe_ssl]. *)
Lemma unsafe_http_strategy_run w c e u :
  snapshot_field w c "environment" = Some e →
  cls w !! "use_unsafe_ssl" = Some u →
  truthy u = true →
  http_strategy c w =
    (Ok (PyRef (length (heap w))),
     with_heap (heap w ++ [StrategyObj HttplibStrategy c e]) w).
Proof.
  intros He Hu Ht. unfold http_strategy.
  erewrite bind_ok by (by apply class_getattr_some).
  rewrite Ht.
  by erewrite bind_ok by (by apply getattr_snapshot_field).
Qed.

Lemma snapshot_field_alloc w c name o :
  is_Some (heap w !! c) →
  snapshot_field (with_heap (heap w ++ [o]) w) c name = snapshot_field w c name.
Proof.
  intros [x Hx]. unfold snapshot_field. cbn [with_heap heap].
  by rewrite (lookup_app_l_Some _ _ _ _ Hx), Hx.
Qed.

Lemma snapshot_field_is_Some w c name v :
  snapshot_field w c name = Some v → is_Some (heap w !! c).
Proof.
  unfold snapshot_field. destruct (heap w !! c); [by eexists|done].
Qed.

(** X14: with [use_unsafe_ssl] on, every call of [http_strategy] makes a new
    strategy object, so two calls return different references; the strategy
    the snapshot has cached is not replaced, and it is what [http_strategy]
    returns again as soon as [use_unsafe_ssl] is set to a false value. *)
Theorem unsafe_strategy_not_cached w c e v u :
  snapshot_field w c "environment" = Some e →
  snapshot_field w c "_http_strategy" = Some v →
  cls w !! "use_unsafe_ssl" = Some u →
  truthy u = true →
  let r1 := http_strategy c w in
  let r2 := http_strategy c (snd r1) in
  fst r1 = Ok (PyRef (length (heap w)))
  ∧ fst r2 = Ok (PyRef (S (length (heap w))))
  ∧ snapshot_field (snd r2) c "_http_strategy" = Some v
  ∧ ∀ f, truthy f = false →
         fst (http_strategy c (snd (class_setattr "use_unsafe_ssl" f (snd r2)))) = Ok v.
Proof.
  intros He Hv Hu Ht. cbn zeta.
  pose proof (snapshot_field_is_Some _ _ _ _ He) as Hc.
  rewrite (unsafe_http_strategy_run w c e u) by done. cbn [fst snd].
  set (w1 := with_heap _ w).
  assert (Hc1 : is_Some (heap w1 !! c)).
  { destruct Hc as [x Hx]. exists x. subst w1. cbn [with_heap heap].
    by apply lookup_app_l_Some. }
  assert (He1 : snapshot_field w1 c "environment" = Some e)
    by (subst w1; by rewrite snapshot_field_alloc).
  assert (Hv1 : snapshot_field w1 c "_http_strategy" = Some v)
    by (subst w1; by rewrite snapshot_field_alloc).
  rewrite (unsafe_http_strategy_run w1 c e u) by done. cbn [fst snd].
  assert (Hv2 : snapshot_field
                  (with_heap (heap w1 ++ [StrategyObj HttplibStrategy c e]) w1) c
                  "_http_strategy" = Some v)
    by by rewrite snapshot_field_alloc.
  split; [done|]. split.
  { subst w1. cbn [with_heap heap]. by rewrite length_app, Nat.add_1_r. }
  split; [done|].
  intros f Hf.
  erewrite (http_strategy_cached _ c v f); [done| |  |done].
  - exact Hv2.
  - cbn [class_setattr snd with_cls cls]. apply lookup_insert_eq.
Qed.

Lemma unsafe_strategy_not_cached_witness :
  fst (http_strategy 0 unsafe_world) = Ok (PyRef 2)
  ∧ fst (http_strategy 0 (snd (http_strategy 0 unsafe_world))) = Ok (PyRef 3)
  ∧ snapshot_field (snd (http_strategy 0 (snd (http_strategy 0 unsafe_world)))) 0
      "_http_strategy" = Some (PyRef 1)
  ∧ fst (http_strategy 0
           (snd (class_setattr "use_unsafe_ssl" (PyBool false)
                   (snd (http_strategy 0 (snd (http_strategy 0 unsafe_world)))))))
    = Ok (PyRef 1).
Proof.
  destruct (unsafe_strategy_not_cached unsafe_world 0 (PyEnv sandbox) (PyRef 1)
              (PyBool true)) as (H1 & H2 & H3 & H4); [vm_compute; reflexivity..|].
  split; [exact H1|]. split; [exact H2|]. split; [exact H3|].
  apply (H4 (PyBool false)). reflexivity.
Defined.

(** ** A second [instantiate] under [use_once] *)


